(** * Coalesce+Affects+Parallelism.ipynb: the driver-side program, verified

    The notebook is a Python 2 driver script for a Spark session.  Its own
    code is sequential glue: it reads the wall clock, sleeps, and calls the
    client API of the engine.  The embedding below keeps that shape:

    - the handles the client API hands back ([rdd], [frame], [writer]) are
      the terms that say how they were obtained;
    - every call that leaves the notebook (clock, sleep, engine) is a [Call];
      what the outside world does with it (how long it takes, whether it
      raises, which data it returns) is an [Env], over which every theorem
      is universally quantified;
    - a computation is a function from the state of the outside world to a
      [Run]: the result or the exception raised, the state left behind, and
      the calls issued, in order. *)

From Stdlib Require Import ZArith List String Bool Lia.
Import ListNotations.
Open Scope Z_scope.
Open Scope string_scope.
Open Scope list_scope.

(** ** Handles of the client API *)

(** Notebook functions that are shipped to the engine ([rdd.map(slow_func)]
    passes the function object, the driver does not call it). *)
Inductive udf : Type :=
| udf_slow_func.

(** [pyspark.sql.types]: the notebook imports and uses [LongType] only. *)
Inductive datatype : Type :=
| LongType.

Inductive rdd : Type :=
| Parallelize (data : list Z)
| RddMap (f : udf) (r : rdd).

Inductive frame : Type :=
| CreateDataFrame (r : rdd) (schema : datatype)
| Coalesce (n : Z) (d : frame)
| Repartition (n : Z) (d : frame).

Inductive writer : Type :=
| Write (d : frame)
| Mode (m : string) (w : writer).

(** ** Calls that leave the notebook *)

Inductive Call : Type :=
| c_time                                        (* time.time() *)
| c_sleep (secs : Z)                            (* time.sleep(secs) *)
| c_defaultParallelism                          (* sc.defaultParallelism *)
| c_parallelize (data : list Z)                 (* sc.parallelize(data) *)
| c_map (f : udf) (r : rdd)                     (* r.map(f) *)
| c_take (n : Z) (r : rdd)                      (* r.take(n) *)
| c_createDataFrame (r : rdd) (schema : datatype)
                              (* sqlContext.createDataFrame(r, schema=..) *)
| c_coalesce (n : Z) (d : frame)                (* d.coalesce(n) *)
| c_repartition (n : Z) (d : frame)             (* d.repartition(n) *)
| c_write (d : frame)                           (* d.write *)
| c_mode (m : string) (w : writer)              (* w.mode(m) *)
| c_parquet (p : string) (w : writer)           (* w.parquet(p) *)
| c_cancelAllJobs.                              (* sc.cancelAllJobs() *)

(** The outside world: clock, operating system, cluster, file system.
    [Time] is the type of clock readings (Python floats) and [minus] their
    subtraction; both stay abstract. *)
Record Env : Type := mkEnv {
  World : Type;
  Time : Type;
  Exn : Type;
  minus : Time -> Time -> Time;
  (** [Some e]: the call, issued in this state, raises [e]. *)
  outcome : Call -> World -> option Exn;
  (** the state the call leaves behind, whether it returned or raised *)
  after : Call -> World -> World;
  (** what [time.time()] returns when issued in this state *)
  clock : World -> Time;
  (** what [sc.defaultParallelism] returns *)
  parallelism : World -> Z;
  (** what [r.take(n)] returns *)
  collected : Z -> rdd -> World -> list Z
}.

(** Classification of calls used by the statements below. *)

(** Calls that materialise a distributed collection: the engine runs the
    job and the caller waits for it. *)
Definition is_job (c : Call) : bool :=
  match c with
  | c_take _ _ | c_parquet _ _ => true
  | _ => false
  end.

Definition is_cancel (c : Call) : bool :=
  match c with
  | c_cancelAllJobs => true
  | _ => false
  end.

(** The file path a call names, if any. *)
Definition call_path (c : Call) : option string :=
  match c with
  | c_parquet p _ => Some p
  | _ => None
  end.

(** The save mode a writer handle carries ([None]: the engine's default). *)
Definition writer_mode (w : writer) : option string :=
  match w with
  | Write _ => None
  | Mode m _ => Some m
  end.

(** Python 2 [range(n)]: the list [0, 1, .., n-1], empty when [n <= 0]. *)
Definition range (n : Z) : list Z :=
  map Z.of_nat (seq 0 (Z.to_nat n)).

(** The data a handle was built from. *)
Fixpoint rdd_source (r : rdd) : list Z :=
  match r with
  | Parallelize data => data
  | RddMap _ r' => rdd_source r'
  end.

Fixpoint frame_source (d : frame) : list Z :=
  match d with
  | CreateDataFrame r _ => rdd_source r
  | Coalesce _ d' | Repartition _ d' => frame_source d'
  end.

Fixpoint writer_source (w : writer) : list Z :=
  match w with
  | Write d => frame_source d
  | Mode _ w' => writer_source w'
  end.

(** The input sequence a call operates on, for the calls that have one. *)
Definition call_source (c : Call) : option (list Z) :=
  match c with
  | c_parallelize data => Some data
  | c_map _ r | c_take _ r | c_createDataFrame r _ => Some (rdd_source r)
  | c_coalesce _ d | c_repartition _ d | c_write d => Some (frame_source d)
  | c_mode _ w | c_parquet _ w => Some (writer_source w)
  | c_time | c_sleep _ | c_defaultParallelism | c_cancelAllJobs => None
  end.

(** ** Concrete outside worlds

    The state is the wall clock in whole seconds.  A sleep takes the time
    asked for, every other call one second; [take] hands back the first
    [n] elements of the source; the calls selected by [fails], which may
    look at the clock, raise. *)
Definition stub_after (c : Call) (w : Z) : Z :=
  match c with
  | c_sleep secs => w + secs
  | _ => w + 1
  end.

Definition stub (fails : Call -> Z -> bool) : Env :=
  {| World := Z;
     Time := Z;
     Exn := string;
     minus := Z.sub;
     outcome := fun c w => if fails c w then Some "Exception" else None;
     after := stub_after;
     clock := fun w => w;
     parallelism := fun _ => 16;
     collected := fun n r _ => firstn (Z.to_nat n) (rdd_source r) |}.

(** Nothing ever raises. *)
Definition quiet : Env := stub (fun _ _ => false).

(** Nothing raises either, on a smaller cluster: the parallelism query
    answers 8. *)
Definition eight_cores : Env :=
  {| World := Z;
     Time := Z;
     Exn := string;
     minus := Z.sub;
     outcome := fun _ _ => None;
     after := stub_after;
     clock := fun w => w;
     parallelism := fun _ => 8;
     collected := fun n r _ => firstn (Z.to_nat n) (rdd_source r) |}.

(** Everything raises. *)
Definition down : Env := stub (fun _ _ => true).

(** Sleeping is interrupted. *)
Definition no_sleep : Env :=
  stub (fun c _ => match c with c_sleep _ => true | _ => false end).

(** The clock can be read at second 0 only. *)
Definition clock_breaks : Env :=
  stub (fun c w => match c with c_time => Z.ltb 0 w | _ => false end).

(** Jobs over three rows fail: [take(3)] and the writes of a three-row
    frame raise. *)
Definition fails_on_three (c : Call) : bool :=
  is_job c &&
  match call_source c with
  | Some data => (List.length data =? 3)%nat
  | None => false
  end.

Definition flaky : Env := stub (fun c _ => fails_on_three c).

(** [path = "~/tmp.parquet"] *)
Definition path : string := "~/tmp.parquet".

(** A call that names a file names [path], through a writer in overwrite
    mode. *)
Definition overwrites_path (c : Call) : bool :=
  match c with
  | c_parquet p wr =>
      String.eqb p path &&
      match writer_mode wr with
      | Some m => String.eqb m "overwrite"
      | None => false
      end
  | _ => true
  end.

(** ** Call sequences

    The sequence of calls each piece of the notebook issues when nothing
    raises; the lemmas of the theory part prove that the code follows
    them. *)

(** [timer] around a computation that issues [s]. *)
Definition timed (s : list Call) : list Call :=
  c_time :: s ++ [c_time].

Definition simple_rdd_script (x : Z) : list Call :=
  let r := Parallelize (range x) in
  [c_parallelize (range x);
   c_map udf_slow_func r;
   c_take x (RddMap udf_slow_func r)].

(** The two operators that bring a frame down to [n] partitions. *)
Inductive reducer : Type :=
| by_coalesce
| by_repartition.

Definition reduced (via : reducer) (n : Z) (d : frame) : frame :=
  match via with
  | by_coalesce => Coalesce n d
  | by_repartition => Repartition n d
  end.

Definition c_reduce (via : reducer) (n : Z) (d : frame) : Call :=
  match via with
  | by_coalesce => c_coalesce n d
  | by_repartition => c_repartition n d
  end.

(** A frame experiment: with or without the mapped delay, reduced by
    either operator, written to [path]. *)
Definition frame_script (delayed : bool) (via : reducer) (x : Z) : list Call :=
  let r0 := Parallelize (range x) in
  let r := if delayed then RddMap udf_slow_func r0 else r0 in
  let d := reduced via 1 (CreateDataFrame r LongType) in
  [c_parallelize (range x)]
  ++ (if delayed then [c_map udf_slow_func r0] else [])
  ++ [c_createDataFrame r LongType;
      c_reduce via 1 (CreateDataFrame r LongType);
      c_write d;
      c_mode "overwrite" (Write d);
      c_parquet path (Mode "overwrite" (Write d))].

Definition experiment_script (body : Z -> list Call) : list Call :=
  flat_map (fun x => timed (body x)) (range 10).

(** The timed bodies of the four experiments, in notebook order. *)
Definition body_scripts : list (Z -> list Call) :=
  [simple_rdd_script;
   frame_script false by_coalesce;
   frame_script true by_coalesce;
   frame_script true by_repartition].

Definition notebook_script : list Call :=
  [c_defaultParallelism]
  ++ timed [c_sleep 1]
  ++ flat_map experiment_script body_scripts
  ++ [c_cancelAllJobs].

(** The first write of the notebook: the empty frame of the second
    experiment. *)
Definition first_write : Call :=
  c_parquet path
    (Mode "overwrite"
       (Write (Coalesce 1 (CreateDataFrame (Parallelize []) LongType)))).

(** A call sequence that persists to parquet at [path], in overwrite mode,
    a frame brought to one partition by either operator. *)
Definition persists_reduced (tr : list Call) : Prop :=
  exists via d, In (c_parquet path (Mode "overwrite" (Write (reduced via 1 d)))) tr.

(** More classifications of calls. *)
Definition is_sleep (c : Call) : bool :=
  match c with
  | c_sleep _ => true
  | _ => false
  end.

Definition is_time (c : Call) : bool :=
  match c with
  | c_time => true
  | _ => false
  end.

Definition is_write (c : Call) : bool :=
  match c with
  | c_parquet _ _ => true
  | _ => false
  end.

(** The writer handle of a write in overwrite mode of a [LongType] frame
    brought to one partition: the operator used and the collection the
    frame was made from. *)
Definition written_frame (wr : writer) : option (reducer * rdd) :=
  match wr with
  | Mode m (Write (Coalesce n (CreateDataFrame r LongType))) =>
      if Z.eqb n 1 && String.eqb m "overwrite"
      then Some (by_coalesce, r) else None
  | Mode m (Write (Repartition n (CreateDataFrame r LongType))) =>
      if Z.eqb n 1 && String.eqb m "overwrite"
      then Some (by_repartition, r) else None
  | _ => None
  end.

Definition single_partition_write (c : Call) : bool :=
  match c with
  | c_parquet _ wr =>
      match written_frame wr with
      | Some _ => true
      | None => false
      end
  | _ => true
  end.

(** Whatever follows a materialising call is a reading of the clock. *)
Fixpoint jobs_timed (l : list Call) : bool :=
  match l with
  | [] => true
  | c :: l' =>
      match l' with
      | [] => true
      | next :: _ => negb (is_job c) || is_time next
      end && jobs_timed l'
  end.

Section Driver.

Variable E : Env.

Inductive Res (A : Type) : Type :=
| Ok (a : A)
| Raise (e : Exn E).

Arguments Ok {A} a.
Arguments Raise {A} e.

Record Run (A : Type) : Type := mkRun {
  result : Res A;
  final : World E;
  trace : list Call
}.

Arguments mkRun {A} result final trace.
Arguments result {A} r.
Arguments final {A} r.
Arguments trace {A} r.

Definition M (A : Type) : Type := World E -> Run A.

Definition ret {A} (a : A) : M A :=
  fun w => mkRun (Ok a) w [].

(** Sequencing: an exception in [m] ends the computation. *)
Definition bind {A B} (m : M A) (k : A -> M B) : M B :=
  fun w =>
    let r := m w in
    match result r with
    | Ok a =>
        let r' := k a (final r) in
        mkRun (result r') (final r') (trace r ++ trace r')
    | Raise e => mkRun (Raise e) (final r) (trace r)
    end.

(** One call to the outside; [v] is the value it returns. *)
Definition call {A} (c : Call) (v : World E -> A) : M A :=
  fun w =>
    match outcome E c w with
    | None => mkRun (Ok (v w)) (after E c w) [c]
    | Some e => mkRun (Raise e) (after E c w) [c]
    end.

Notation "x <- m ;; k" := (bind m (fun x => k))
  (at level 61, m at next level, right associativity).
Notation "m ;;; k" := (bind m (fun _ => k))
  (at level 61, right associativity).

(** *** The library calls the notebook makes *)

Definition time_time : M (Time E) := call c_time (clock E).
Definition time_sleep (secs : Z) : M unit := call (c_sleep secs) (fun _ => tt).
Definition sc_defaultParallelism : M Z :=
  call c_defaultParallelism (parallelism E).
Definition sc_parallelize (data : list Z) : M rdd :=
  call (c_parallelize data) (fun _ => Parallelize data).
Definition rdd_map (f : udf) (r : rdd) : M rdd :=
  call (c_map f r) (fun _ => RddMap f r).
Definition rdd_take (n : Z) (r : rdd) : M (list Z) :=
  call (c_take n r) (collected E n r).
Definition sqlContext_createDataFrame (r : rdd) (schema : datatype) : M frame :=
  call (c_createDataFrame r schema) (fun _ => CreateDataFrame r schema).
Definition df_coalesce (n : Z) (d : frame) : M frame :=
  call (c_coalesce n d) (fun _ => Coalesce n d).
Definition df_repartition (n : Z) (d : frame) : M frame :=
  call (c_repartition n d) (fun _ => Repartition n d).
Definition df_write (d : frame) : M writer :=
  call (c_write d) (fun _ => Write d).
Definition writer_set_mode (m : string) (w : writer) : M writer :=
  call (c_mode m w) (fun _ => Mode m w).
Definition writer_parquet (p : string) (w : writer) : M unit :=
  call (c_parquet p w) (fun _ => tt).
Definition sc_cancelAllJobs : M unit := call c_cancelAllJobs (fun _ => tt).

(** Python 2 [map(f, l)]: eager, left to right, a list. *)
Fixpoint py_map {A B} (f : A -> M B) (l : list A) : M (list B) :=
  match l with
  | [] => ret []
  | x :: l' =>
      y <- f x ;;
      ys <- py_map f l' ;;
      ret (y :: ys)
  end.

(** *** The notebook's definitions *)

(** [def slow_func(ping): time.sleep(1); return(ping)] *)
Definition slow_func {A} (ping : A) : M A :=
  time_sleep 1 ;;;
  ret ping.

(** What a [udf] handle stands for. *)
Definition udf_body (f : udf) : Z -> M Z :=
  match f with
  | udf_slow_func => slow_func
  end.

(** [def timer(func): start_time = time.time(); func();
     return time.time() - start_time] *)
Definition timer {A} (func : M A) : M (Time E) :=
  start_time <- time_time ;;
  func ;;;
  now <- time_time ;;
  ret (minus E now start_time).

(** [def create_frame(rdd):
     return sqlContext.createDataFrame(rdd, schema=LongType())] *)
Definition create_frame (r : rdd) : M frame :=
  sqlContext_createDataFrame r LongType.

(** *** The experiment cells *)

(** [sc.parallelize(range(x)).map(slow_func).take(x)] *)
Definition simple_rdd_body (x : Z) : M (list Z) :=
  r <- sc_parallelize (range x) ;;
  r <- rdd_map udf_slow_func r ;;
  rdd_take x r.

(** [create_frame(sc.parallelize(range(x)))
       .coalesce(1).write.mode("overwrite").parquet(path)] *)
Definition coalesce_write_body (x : Z) : M unit :=
  r <- sc_parallelize (range x) ;;
  d <- create_frame r ;;
  d <- df_coalesce 1 d ;;
  w <- df_write d ;;
  w <- writer_set_mode "overwrite" w ;;
  writer_parquet path w.

(** [create_frame(sc.parallelize(range(x)).map(slow_func))
       .coalesce(1).write.mode("overwrite").parquet(path)] *)
Definition coalesce_slow_body (x : Z) : M unit :=
  r <- sc_parallelize (range x) ;;
  r <- rdd_map udf_slow_func r ;;
  d <- create_frame r ;;
  d <- df_coalesce 1 d ;;
  w <- df_write d ;;
  w <- writer_set_mode "overwrite" w ;;
  writer_parquet path w.

(** [create_frame(sc.parallelize(range(x)).map(slow_func))
       .repartition(1).write.mode("overwrite").parquet(path)] *)
Definition repartition_slow_body (x : Z) : M unit :=
  r <- sc_parallelize (range x) ;;
  r <- rdd_map udf_slow_func r ;;
  d <- create_frame r ;;
  d <- df_repartition 1 d ;;
  w <- df_write d ;;
  w <- writer_set_mode "overwrite" w ;;
  writer_parquet path w.

(** [map(lambda x: timer(lambda: <body>), range(10))] *)
Definition experiment {A} (body : Z -> M A) : M (list (Time E)) :=
  py_map (fun x => timer (body x)) (range 10).

Definition cell_simple_rdd : M (list (Time E)) := experiment simple_rdd_body.
Definition cell_coalesce_write : M (list (Time E)) :=
  experiment coalesce_write_body.
Definition cell_coalesce_slow : M (list (Time E)) :=
  experiment coalesce_slow_body.
Definition cell_repartition_slow : M (list (Time E)) :=
  experiment repartition_slow_body.

(** The four experiments, in notebook order. *)
Definition experiments : list (M (list (Time E))) :=
  [cell_simple_rdd; cell_coalesce_write; cell_coalesce_slow;
   cell_repartition_slow].

(** *** The notebook *)

(** What a code cell displays. *)
Inductive Out : Type :=
| out_none
| out_int (n : Z)
| out_time (t : Time E)
| out_times (ts : list (Time E)).

Definition shows {A} (f : A -> Out) (m : M A) : M Out :=
  a <- m ;; ret (f a).

(** [timer(lambda: slow_func(10))] *)
Definition cell_example_usage : M (Time E) := timer (slow_func 10).

(** The code cells in order.  The cells that only bind names (the imports
    and [path], and the three [def]s) issue no call. *)
Definition notebook : list (M Out) :=
  [ ret out_none;                              (* imports, path *)
    shows out_int sc_defaultParallelism;
    ret out_none;                              (* def slow_func *)
    ret out_none;                              (* def timer *)
    shows out_time cell_example_usage;
    ret out_none;                              (* def create_frame *)
    shows out_times cell_simple_rdd;
    shows out_times cell_coalesce_write;
    shows out_times cell_coalesce_slow;
    shows out_times cell_repartition_slow;
    shows (fun _ => out_none) sc_cancelAllJobs ].

(** Running the cells top to bottom; an exception that reaches the top of
    a cell stops the run. *)
Fixpoint run_all (cells : list (M Out)) : M (list Out) :=
  match cells with
  | [] => ret []
  | c :: cells' =>
      o <- c ;;
      os <- run_all cells' ;;
      ret (o :: os)
  end.

(** *** Specification vocabulary *)

(** Issuing the calls of [s] one after the other, until one raises. *)
Fixpoint replay (s : list Call) : M unit :=
  match s with
  | [] => ret tt
  | c :: s' => call c (fun _ => tt) ;;; replay s'
  end.

(** [m] issues the calls of [s] in order and stops at the first one that
    raises, with that exception; when none raises it returns a value
    satisfying [P]. *)
Definition follows {A} (m : M A) (s : list Call) (P : A -> Prop) : Prop :=
  forall w,
    final (m w) = final (replay s w) /\
    trace (m w) = trace (replay s w) /\
    match result (replay s w) with
    | Ok _ => exists a, result (m w) = Ok a /\ P a
    | Raise e => result (m w) = Raise e
    end.

(** The frame experiments as one program with two switches. *)
Definition reduce (via : reducer) (n : Z) (d : frame) : M frame :=
  match via with
  | by_coalesce => df_coalesce n d
  | by_repartition => df_repartition n d
  end.

Definition frame_body (delayed : bool) (via : reducer) (x : Z) : M unit :=
  r <- sc_parallelize (range x) ;;
  r <- (if delayed then rdd_map udf_slow_func r else ret r) ;;
  d <- create_frame r ;;
  d <- reduce via 1 d ;;
  w <- df_write d ;;
  w <- writer_set_mode "overwrite" w ;;
  writer_parquet path w.

(** A run that issued one materialising call and measured one time. *)
Definition one_job_one_time (r : Run (list (Time E))) : Prop :=
  List.length (filter is_job (trace r)) = 1%nat /\
  exists t, result r = Ok [t].

(** The times a sequence of timed runs measures, from the state [w]: each
    is the clock read in the state the run's calls left minus the clock
    read in the state the run started in. *)
Fixpoint measures (runs : list (list Call)) (w : World E) : list (Time E) :=
  match runs with
  | [] => []
  | s :: rest =>
      let w' := final (replay s (after E c_time w)) in
      minus E (clock E w') (clock E w) :: measures rest (after E c_time w')
  end.

(** ** Theory *)

Lemma run_eta A (r : Run A) : r = mkRun (result r) (final r) (trace r).
Proof. destruct r; reflexivity. Qed.

Lemma bind_ret_l A B (a : A) (k : A -> M B) w : bind (ret a) k w = k a w.
Proof. unfold bind, ret; simpl. symmetry; apply run_eta. Qed.

Lemma bind_assoc A B C (m : M A) (k : A -> M B) (h : B -> M C) w :
  bind (bind m k) h w = bind m (fun a => bind (k a) h) w.
Proof.
  unfold bind; simpl.
  destruct (m w) as [[a|e] w1 t1]; simpl; [|reflexivity].
  destruct (k a w1) as [[b|e] w2 t2]; simpl; [|reflexivity].
  destruct (h b w2) as [r3 w3 t3]; simpl.
  now rewrite app_assoc.
Qed.

Lemma bind_ext A B (m : M A) (k k' : A -> M B) w :
  (forall a w', k a w' = k' a w') -> bind m k w = bind m k' w.
Proof.
  intros H; unfold bind.
  destruct (result (m w)); [rewrite H|]; reflexivity.
Qed.

Lemma replay_app s1 s2 w :
  replay (s1 ++ s2) w = bind (replay s1) (fun _ => replay s2) w.
Proof.
  revert w; induction s1 as [|c s1 IH]; intros w; simpl.
  - now rewrite bind_ret_l.
  - rewrite bind_assoc. apply bind_ext. intros _ w'. apply IH.
Qed.

Lemma replay_trace_firstn s w :
  exists n, trace (replay s w) = firstn n s.
Proof.
  revert w; induction s as [|c s IH]; intros w; simpl.
  - exists 0%nat; reflexivity.
  - unfold bind, call. destruct (outcome E c w); simpl.
    + exists 1%nat; now destruct s.
    + destruct (IH (after E c w)) as [n Hn]. exists (S n); simpl.
      now rewrite Hn.
Qed.

Lemma replay_ok_trace s w u :
  result (replay s w) = Ok u -> trace (replay s w) = s.
Proof.
  revert w; induction s as [|c s IH]; intros w; simpl; [reflexivity|].
  unfold bind, call. destruct (outcome E c w); simpl; [discriminate|].
  intros H. f_equal. now apply IH.
Qed.

Lemma replay_quiet s w :
  (forall c w', outcome E c w' = None) -> result (replay s w) = Ok tt.
Proof.
  intros Q; revert w; induction s as [|c s IH]; intros w; simpl;
    [reflexivity|].
  unfold bind, call. rewrite Q; simpl. apply IH.
Qed.

(** The first call that raises ends the sequence. *)
Lemma replay_raise_at pre c post w e :
  result (replay pre w) = Ok tt ->
  outcome E c (final (replay pre w)) = Some e ->
  replay (pre ++ c :: post) w
  = mkRun (Raise e) (after E c (final (replay pre w))) (pre ++ [c]).
Proof.
  intros Hok Hc. rewrite replay_app. unfold bind at 1. rewrite Hok.
  rewrite (replay_ok_trace _ _ _ Hok). simpl.
  unfold bind, call. rewrite Hc. reflexivity.
Qed.

(** *** Programs follow their call sequences *)

Lemma follows_weaken A (m : M A) s (P Q : A -> Prop) :
  follows m s P -> (forall a, P a -> Q a) -> follows m s Q.
Proof.
  intros H PQ w. destruct (H w) as (Hf & Ht & Hr).
  repeat split; trivial.
  destruct (result (replay s w)) as [u|e]; trivial.
  destruct Hr as (a & Ha & Pa). exists a; auto.
Qed.

Lemma follows_ret A (a : A) : follows (ret a) [] (eq a).
Proof. intros w; simpl. repeat split. now exists a. Qed.

Lemma follows_call A (c : Call) (v : World E -> A) :
  follows (call c v) [c] (fun _ => True).
Proof.
  intros w; simpl. unfold bind, call, ret.
  destruct (outcome E c w); simpl; repeat split. now exists (v w).
Qed.

Lemma follows_call_const A (c : Call) (a : A) :
  follows (call c (fun _ => a)) [c] (eq a).
Proof.
  intros w; simpl. unfold bind, call, ret.
  destruct (outcome E c w); simpl; repeat split. now exists a.
Qed.

Lemma follows_bind A B (m : M A) (k : A -> M B) s1 s2 P Q :
  follows m s1 P ->
  (forall a, P a -> follows (k a) s2 Q) ->
  follows (bind m k) (s1 ++ s2) Q.
Proof.
  intros H1 H2 w. rewrite replay_app.
  destruct (H1 w) as (Hf & Ht & Hr). unfold bind.
  destruct (result (replay s1 w)) as [u|e].
  - destruct Hr as (a & Ha & Pa). rewrite Ha; simpl.
    rewrite Hf, Ht.
    destruct (H2 a Pa (final (replay s1 w))) as (Hf2 & Ht2 & Hr2).
    repeat split; trivial. now rewrite Ht2.
  - rewrite Hr; simpl. auto.
Qed.

Lemma follows_script A (m : M A) s s' P :
  follows m s P -> s = s' -> follows m s' P.
Proof. now intros H <-. Qed.

Lemma follows_timer A (func : M A) s P :
  follows func s P -> follows (timer func) (timed s) (fun _ => True).
Proof.
  intros H. unfold timer, timed.
  apply follows_script with (s := [c_time] ++ s ++ [c_time] ++ []);
    [|now rewrite app_nil_r].
  eapply follows_bind; [apply follows_call|]. intros start_time _.
  eapply follows_bind; [exact H|]. intros _ _.
  eapply follows_bind; [apply follows_call|]. intros now _.
  eapply follows_weaken; [apply follows_ret|]. trivial.
Qed.

Lemma follows_py_map A B (f : A -> M B) sf P l :
  (forall x, follows (f x) (sf x) P) ->
  follows (py_map f l) (flat_map sf l)
          (fun ys => List.length ys = List.length l).
Proof.
  intros H. induction l as [|x l IH]; simpl.
  - eapply follows_weaken; [apply follows_ret|]. now intros ? <-.
  - eapply follows_bind; [apply H|]. intros y _.
    apply follows_script with (s := flat_map sf l ++ []);
      [|now rewrite app_nil_r].
    eapply follows_bind; [exact IH|]. intros ys Hys.
    eapply follows_weaken; [apply follows_ret|].
    intros ? <-; simpl. now rewrite Hys.
Qed.

Lemma follows_experiment A (body : Z -> M A) sb P :
  (forall x, follows (body x) (sb x) P) ->
  follows (experiment body) (experiment_script sb)
          (fun ts => List.length ts = 10%nat).
Proof.
  intros H. unfold experiment, experiment_script.
  eapply follows_weaken.
  - apply follows_py_map with (P := fun _ => True).
    intros x. eapply follows_timer. apply H.
  - intros ts ->. reflexivity.
Qed.

Lemma follows_shows A (f : A -> Out) (m : M A) s P :
  follows m s P -> follows (shows f m) s (fun _ => True).
Proof.
  intros H. unfold shows.
  apply follows_script with (s := s ++ []); [|now rewrite app_nil_r].
  eapply follows_bind; [exact H|]. intros a _.
  eapply follows_weaken; [apply follows_ret|]. trivial.
Qed.

Lemma follows_slow_func A (ping : A) :
  follows (slow_func ping) [c_sleep 1] (eq ping).
Proof.
  unfold slow_func, time_sleep.
  apply follows_script with (s := [c_sleep 1] ++ []); [|reflexivity].
  eapply follows_bind; [apply follows_call|]. intros _ _.
  apply follows_ret.
Qed.

Local Ltac step_const :=
  eapply follows_bind; [apply follows_call_const|]; intros ? <-.

Lemma follows_simple_rdd_body x :
  follows (simple_rdd_body x) (simple_rdd_script x) (fun _ => True).
Proof.
  unfold simple_rdd_body, simple_rdd_script, sc_parallelize, rdd_map,
    rdd_take.
  apply follows_script
    with (s := [c_parallelize (range x)]
               ++ [c_map udf_slow_func (Parallelize (range x))]
               ++ [c_take x (RddMap udf_slow_func (Parallelize (range x)))]);
    [|reflexivity].
  do 2 step_const. apply follows_call.
Qed.

Lemma follows_frame_body delayed via x :
  follows (frame_body delayed via x) (frame_script delayed via x) (eq tt).
Proof.
  unfold frame_body, frame_script, sc_parallelize, create_frame,
    sqlContext_createDataFrame, df_write, writer_set_mode, writer_parquet.
  step_const.
  set (r0 := Parallelize (range x)).
  eapply follows_bind
    with (P := eq (if delayed then RddMap udf_slow_func r0 else r0)).
  { destruct delayed; [apply follows_call_const | apply follows_ret]. }
  intros r <-.
  set (r := if delayed then RddMap udf_slow_func r0 else r0).
  apply follows_script
    with (s := [c_createDataFrame r LongType]
               ++ [c_reduce via 1 (CreateDataFrame r LongType)]
               ++ [c_write (reduced via 1 (CreateDataFrame r LongType))]
               ++ [c_mode "overwrite"
                     (Write (reduced via 1 (CreateDataFrame r LongType)))]
               ++ [c_parquet path
                     (Mode "overwrite"
                        (Write (reduced via 1 (CreateDataFrame r LongType))))]);
    [|reflexivity].
  step_const.
  eapply follows_bind
    with (P := eq (reduced via 1 (CreateDataFrame r LongType))).
  { destruct via; apply follows_call_const. }
  intros d <-.
  do 2 step_const. apply follows_call_const.
Qed.

Lemma follows_ext A (m m' : M A) s P :
  (forall w, m w = m' w) -> follows m s P -> follows m' s P.
Proof. intros H F w. rewrite <- H. apply F. Qed.

(** The three frame cells are instances of [frame_body]. *)
Lemma coalesce_write_body_frame x w :
  coalesce_write_body x w = frame_body false by_coalesce x w.
Proof.
  unfold coalesce_write_body, frame_body. apply bind_ext.
  intros r w'. now rewrite bind_ret_l.
Qed.

Lemma coalesce_slow_body_frame x w :
  coalesce_slow_body x w = frame_body true by_coalesce x w.
Proof. reflexivity. Qed.

Lemma repartition_slow_body_frame x w :
  repartition_slow_body x w = frame_body true by_repartition x w.
Proof. reflexivity. Qed.

Lemma follows_cells i cell sb :
  nth_error experiments i = Some cell ->
  nth_error body_scripts i = Some sb ->
  follows cell (experiment_script sb) (fun ts => List.length ts = 10%nat).
Proof.
  intros Hc Hs.
  destruct i as [|[|[|[|i]]]]; simpl in Hc, Hs;
    try (destruct i; discriminate);
    injection Hc as <-; injection Hs as <-;
    apply follows_experiment with (P := fun _ => True); intros x.
  - apply follows_simple_rdd_body.
  - eapply follows_weaken; [|trivial].
    eapply follows_ext; [|apply follows_frame_body].
    intros w; symmetry; apply coalesce_write_body_frame.
  - eapply follows_weaken; [|trivial].
    eapply follows_ext; [|apply follows_frame_body].
    intros w; symmetry; apply coalesce_slow_body_frame.
  - eapply follows_weaken; [|trivial].
    eapply follows_ext; [|apply follows_frame_body].
    intros w; symmetry; apply repartition_slow_body_frame.
Qed.

Lemma follows_run_all cells scripts :
  Forall2 (fun c s => follows c s (fun _ => True)) cells scripts ->
  follows (run_all cells) (List.concat scripts) (fun _ => True).
Proof.
  induction 1 as [|c s cells scripts Hc _ IH]; simpl.
  - eapply follows_weaken; [apply follows_ret|]. trivial.
  - eapply follows_bind; [exact Hc|]. intros o _.
    apply follows_script with (s := List.concat scripts ++ []);
      [|now rewrite app_nil_r].
    eapply follows_bind; [exact IH|]. intros os _.
    eapply follows_weaken; [apply follows_ret|]. trivial.
Qed.

Lemma follows_notebook :
  follows (run_all notebook) notebook_script (fun _ => True).
Proof.
  apply follows_script
    with (s := List.concat
                 ([[]; [c_defaultParallelism]; []; []; timed [c_sleep 1]; []]
                  ++ map experiment_script body_scripts
                  ++ [[c_cancelAllJobs]])).
  - apply follows_run_all. unfold notebook, body_scripts; simpl map; simpl app.
    assert (Hdef : follows (ret out_none) [] (fun _ => True))
      by (eapply follows_weaken; [apply follows_ret|]; trivial).
    assert (Hexp : forall i cell sb,
               nth_error experiments i = Some cell ->
               nth_error body_scripts i = Some sb ->
               follows (shows out_times cell) (experiment_script sb)
                       (fun _ => True))
      by (intros i cell sb Hc Hs; eapply follows_shows, follows_cells; eauto).
    repeat apply Forall2_cons; try exact Hdef.
    + eapply follows_shows, follows_call.
    + eapply follows_shows, follows_timer, follows_slow_func.
    + now apply (Hexp 0%nat).
    + now apply (Hexp 1%nat).
    + now apply (Hexp 2%nat).
    + now apply (Hexp 3%nat).
    + eapply follows_shows, follows_call.
    + apply Forall2_nil.
  - vm_compute. reflexivity.
Qed.

(** *** What following a call sequence gives *)

Lemma follows_returns A (m : M A) s P w :
  follows m s P ->
  result (replay s w) = Ok tt ->
  exists a, result (m w) = Ok a /\ P a /\ trace (m w) = s.
Proof.
  intros F Hok. destruct (F w) as (_ & Ht & Hr). rewrite Hok in Hr.
  destruct Hr as (a & Ha & Pa). exists a. repeat split; trivial.
  rewrite Ht. eapply replay_ok_trace; eauto.
Qed.

Lemma follows_prefix A (m : M A) s P w :
  follows m s P -> exists n, trace (m w) = firstn n s.
Proof.
  intros F. destruct (F w) as (_ & Ht & _). rewrite Ht.
  apply replay_trace_firstn.
Qed.

Lemma follows_raises_at A (m : M A) s P pre c post w e :
  follows m s P ->
  s = pre ++ c :: post ->
  result (replay pre w) = Ok tt ->
  outcome E c (final (replay pre w)) = Some e ->
  m w = mkRun (Raise e) (after E c (final (replay pre w))) (pre ++ [c]).
Proof.
  intros F -> Hok Hc. destruct (F w) as (Hf & Ht & Hr).
  rewrite (replay_raise_at _ _ _ _ _ Hok Hc) in Hf, Ht, Hr. simpl in *.
  rewrite (run_eta _ (m w)). now rewrite Hf, Ht, Hr.
Qed.

(** *** Lists *)

Lemma in_firstn A (x : A) n l : In x (firstn n l) -> In x l.
Proof.
  intros H. rewrite <- (firstn_skipn n l). apply in_or_app. now left.
Qed.

Lemma split_at_last A (x : A) l pre post :
  ~ In x l -> l ++ [x] = pre ++ x :: post -> pre = l /\ post = [].
Proof.
  revert pre; induction l as [|y l IH]; intros pre Hn H.
  - destruct pre as [|z pre]; simpl in H.
    + injection H as <-. auto.
    + injection H as _ H. now destruct pre.
  - destruct pre as [|z pre]; simpl in H.
    + injection H as -> _. exfalso. apply Hn. now left.
    + injection H as <- H. destruct (IH pre) as [-> ->]; auto.
      intros Hin. apply Hn. now right.
Qed.

Lemma timer_unfold A (func : M A) w :
  timer func w =
  match outcome E c_time w with
  | Some e => mkRun (Raise e) (after E c_time w) [c_time]
  | None =>
      let r := func (after E c_time w) in
      match result r with
      | Raise e => mkRun (Raise e) (final r) (c_time :: trace r)
      | Ok _ =>
          match outcome E c_time (final r) with
          | Some e =>
              mkRun (Raise e) (after E c_time (final r))
                    (c_time :: trace r ++ [c_time])
          | None =>
              mkRun (Ok (minus E (clock E (final r)) (clock E w)))
                    (after E c_time (final r))
                    (c_time :: trace r ++ [c_time])
          end
      end
  end.
Proof.
  unfold timer, time_time, bind, call, ret.
  destruct (outcome E c_time w); simpl; [reflexivity|].
  destruct (func (after E c_time w)) as [[a|e] w2 t2]; simpl;
    [|reflexivity].
  destruct (outcome E c_time w2); simpl; now rewrite ?app_nil_r.
Qed.

Lemma follows_ok A (m : M A) s P w a :
  follows m s P -> result (m w) = Ok a -> trace (m w) = s /\ P a.
Proof.
  intros F Ha. destruct (F w) as (_ & Ht & Hr).
  destruct (result (replay s w)) as [u|e] eqn:R.
  - destruct Hr as (a' & Ha' & Pa). rewrite Ha in Ha'.
    injection Ha' as <-. split; trivial.
    rewrite Ht. eapply replay_ok_trace; eauto.
  - congruence.
Qed.

(** Each experiment cell is [experiment] around a body that follows the
    cell's call sequence. *)
Lemma cells_are_experiments i cell sb :
  nth_error experiments i = Some cell ->
  nth_error body_scripts i = Some sb ->
  exists A (body : Z -> M A),
    cell = experiment body /\
    forall x, follows (body x) (sb x) (fun _ => True).
Proof.
  intros Hc Hs.
  destruct i as [|[|[|[|i]]]]; simpl in Hc, Hs;
    try (destruct i; discriminate);
    injection Hc as <-; injection Hs as <-.
  - exists (list Z), simple_rdd_body. split; [reflexivity|].
    apply follows_simple_rdd_body.
  - exists unit, coalesce_write_body. split; [reflexivity|]. intros x.
    eapply follows_weaken; [|trivial].
    eapply follows_ext; [|apply follows_frame_body].
    intros w; symmetry; apply coalesce_write_body_frame.
  - exists unit, coalesce_slow_body. split; [reflexivity|]. intros x.
    eapply follows_weaken; [|trivial].
    eapply follows_ext; [|apply follows_frame_body].
    intros w; symmetry; apply coalesce_slow_body_frame.
  - exists unit, repartition_slow_body. split; [reflexivity|]. intros x.
    eapply follows_weaken; [|trivial].
    eapply follows_ext; [|apply follows_frame_body].
    intros w; symmetry; apply repartition_slow_body_frame.
Qed.

Lemma replay_app_ok s1 s2 w :
  result (replay (s1 ++ s2) w) = Ok tt ->
  result (replay s1 w) = Ok tt /\
  result (replay s2 (final (replay s1 w))) = Ok tt /\
  final (replay (s1 ++ s2) w) = final (replay s2 (final (replay s1 w))).
Proof.
  rewrite replay_app. unfold bind.
  destruct (result (replay s1 w)) as [[]|e]; simpl; [|discriminate].
  auto.
Qed.

Lemma replay_cons_ok c s w :
  result (replay (c :: s) w) = Ok tt ->
  outcome E c w = None /\
  result (replay s (after E c w)) = Ok tt /\
  final (replay (c :: s) w) = final (replay s (after E c w)).
Proof.
  simpl. unfold bind, call.
  destruct (outcome E c w); simpl; [discriminate|]. auto.
Qed.

Lemma py_map_timer_measures A (body : Z -> M A) sb P :
  (forall x, follows (body x) (sb x) P) ->
  forall l w,
    result (replay (flat_map (fun x => timed (sb x)) l) w) = Ok tt ->
    result (py_map (fun x => timer (body x)) l w)
    = Ok (measures (map sb l) w) /\
    final (py_map (fun x => timer (body x)) l w)
    = final (replay (flat_map (fun x => timed (sb x)) l) w).
Proof.
  intros F. induction l as [|x l IH]; intros w Hok.
  - split; reflexivity.
  - cbn [flat_map] in Hok |- *.
    apply replay_app_ok in Hok. destruct Hok as (H1 & H2 & H3).
    unfold timed in H1 at 1.
    apply replay_cons_ok in H1. destruct H1 as (T0 & H1 & Hf1).
    apply replay_app_ok in H1. destruct H1 as (Hs & Hl & Hf2).
    apply replay_cons_ok in Hl. destruct Hl as (T1 & _ & Hf3).
    destruct (F x (after E c_time w)) as (Hfin & _ & Hres).
    rewrite Hs in Hres. destruct Hres as (a & Ha & _).
    assert (Ht : result (timer (body x) w)
                 = Ok (minus E
                         (clock E (final (replay (sb x) (after E c_time w))))
                         (clock E w)) /\
                 final (timer (body x) w)
                 = after E c_time (final (replay (sb x) (after E c_time w)))).
    { rewrite timer_unfold, T0. simpl. rewrite Ha, Hfin, T1. simpl. auto. }
    destruct Ht as [Htr Htf].
    assert (Hw : final (replay (timed (sb x)) w)
                 = after E c_time (final (replay (sb x) (after E c_time w)))).
    { unfold timed. rewrite Hf1, Hf2, Hf3. reflexivity. }
    rewrite Hw in H2, H3.
    destruct (IH _ H2) as [IHr IHf].
    split.
    + cbn [py_map map measures]. unfold bind. rewrite Htr. cbn [result].
      rewrite Htf, IHr. reflexivity.
    + rewrite H3. cbn [py_map]. unfold bind. rewrite Htr. cbn [result final].
      rewrite Htf, IHr. exact IHf.
Qed.

Lemma replay_single_trace c w : trace (replay [c] w) = [c].
Proof.
  simpl. unfold bind, call. now destruct (outcome E c w).
Qed.

Lemma measures_length runs w :
  List.length (measures runs w) = List.length runs.
Proof.
  revert w; induction runs as [|s runs IH]; intros w; simpl; [reflexivity|].
  now rewrite IH.
Qed.

(** ** The claims *)

(** C2. For every input value, [slow_func] issues exactly one call,
    [time.sleep(1)], and returns its argument unchanged: whenever the sleep
    returns, the result is the input itself; the only way not to return it
    is the sleep raising. *)
Theorem slow_func_identity A (ping : A) w :
  slow_func ping w
  = mkRun (match outcome E (c_sleep 1) w with
           | None => Ok ping
           | Some e => Raise e
           end)
          (after E (c_sleep 1) w)
          [c_sleep 1].
Proof.
  unfold slow_func, time_sleep, bind, call, ret.
  destruct (outcome E (c_sleep 1) w); reflexivity.
Qed.

(** C3. For every zero-argument function [func] that returns, [timer func]
    runs [func] exactly once, between two readings of the clock, and
    returns the reading taken after the invocation minus the reading taken
    before it: the calls issued are one clock reading, those of a single
    run of [func] started in the state the first reading left, and one more
    clock reading made in the state that run left. *)
Theorem timer_once_elapsed A (func : M A) w a :
  outcome E c_time w = None ->
  result (func (after E c_time w)) = Ok a ->
  outcome E c_time (final (func (after E c_time w))) = None ->
  timer func w
  = mkRun (Ok (minus E (clock E (final (func (after E c_time w))))
                       (clock E w)))
          (after E c_time (final (func (after E c_time w))))
          (c_time :: trace (func (after E c_time w)) ++ [c_time]).
Proof.
  intros H0 Hf H1. rewrite timer_unfold, H0. simpl. now rewrite Hf, H1.
Qed.

(** C10. [timer] discards what the timed function returns: two
    zero-argument functions, of any result types and returning any values,
    after which the clock reads the same, give the same result of [timer],
    namely the difference of the two clock readings. *)
Theorem timer_discards_result A B (f : M A) (g : M B) w a b :
  outcome E c_time w = None ->
  result (f (after E c_time w)) = Ok a ->
  result (g (after E c_time w)) = Ok b ->
  clock E (final (f (after E c_time w)))
  = clock E (final (g (after E c_time w))) ->
  outcome E c_time (final (f (after E c_time w))) = None ->
  outcome E c_time (final (g (after E c_time w))) = None ->
  result (timer f w) = result (timer g w) /\
  result (timer f w)
  = Ok (minus E (clock E (final (f (after E c_time w)))) (clock E w)).
Proof.
  intros H0 Hf Hg Hclock H1 H2.
  rewrite !timer_unfold, H0. simpl. rewrite Hf, Hg, H1, H2. simpl.
  now rewrite Hclock.
Qed.

(** C7. Nothing in the notebook handles an exception.  In [slow_func] and
    [create_frame] the exception of the one underlying call is the result.
    In [timer] an exception of the first clock reading, of the timed
    function or of the second clock reading is the result, and nothing is
    called after it.  In every experiment cell, whichever call of its
    sequence is the first to raise, the cell ends there with that
    exception: the calls made are those up to the raising one, none is
    repeated and none follows. *)
Theorem exceptions_propagate :
  (forall A (ping : A) w e,
      outcome E (c_sleep 1) w = Some e ->
      slow_func ping w = mkRun (Raise e) (after E (c_sleep 1) w) [c_sleep 1])
  /\
  (forall r w e,
      outcome E (c_createDataFrame r LongType) w = Some e ->
      create_frame r w
      = mkRun (Raise e) (after E (c_createDataFrame r LongType) w)
              [c_createDataFrame r LongType])
  /\
  (forall A (func : M A) w e,
      outcome E c_time w = Some e ->
      timer func w = mkRun (Raise e) (after E c_time w) [c_time])
  /\
  (forall A (func : M A) w e,
      outcome E c_time w = None ->
      result (func (after E c_time w)) = Raise e ->
      timer func w
      = mkRun (Raise e) (final (func (after E c_time w)))
              (c_time :: trace (func (after E c_time w))))
  /\
  (forall A (func : M A) w a e,
      outcome E c_time w = None ->
      result (func (after E c_time w)) = Ok a ->
      outcome E c_time (final (func (after E c_time w))) = Some e ->
      timer func w
      = mkRun (Raise e) (after E c_time (final (func (after E c_time w))))
              (c_time :: trace (func (after E c_time w)) ++ [c_time]))
  /\
  (forall i cell sb pre c post w e,
      nth_error experiments i = Some cell ->
      nth_error body_scripts i = Some sb ->
      experiment_script sb = pre ++ c :: post ->
      result (replay pre w) = Ok tt ->
      outcome E c (final (replay pre w)) = Some e ->
      cell w = mkRun (Raise e) (after E c (final (replay pre w))) (pre ++ [c])).
Proof.
  repeat apply conj.
  - intros A ping w e H. now rewrite slow_func_identity, H.
  - intros r w e H.
    unfold create_frame, sqlContext_createDataFrame, call. now rewrite H.
  - intros A func w e H. now rewrite timer_unfold, H.
  - intros A func w e H Hf. rewrite timer_unfold, H. simpl. now rewrite Hf.
  - intros A func w a e H Hf H1. rewrite timer_unfold, H. simpl.
    now rewrite Hf, H1.
  - intros i cell sb pre c post w e Hc Hs Hsplit Hok Hraise.
    eapply follows_raises_at; eauto using follows_cells.
Qed.

(** C5. Every call of the notebook that names a file names [path], the
    constant bound at setup, and is a parquet write through a writer set to
    overwrite mode; no other call of the notebook names a file. *)
Theorem writes_overwrite_path w c :
  In c (trace (run_all notebook w)) ->
  (forall p, call_path c = Some p -> p = path) /\
  (forall p wr, c = c_parquet p wr ->
                p = path /\ writer_mode wr = Some "overwrite").
Proof.
  intros Hin.
  destruct (follows_prefix _ _ _ _ w follows_notebook) as [n Hn].
  rewrite Hn in Hin. apply in_firstn in Hin.
  assert (Hall : forallb overwrites_path notebook_script = true)
    by (vm_compute; reflexivity).
  rewrite forallb_forall in Hall. specialize (Hall c Hin).
  assert (Hw : forall p wr, c = c_parquet p wr ->
                            p = path /\ writer_mode wr = Some "overwrite").
  { intros p wr ->. simpl in Hall.
    apply andb_true_iff in Hall. destruct Hall as [Hp Hm].
    apply String.eqb_eq in Hp.
    destruct (writer_mode wr) as [m|]; [|discriminate].
    apply String.eqb_eq in Hm. now subst. }
  split; [|exact Hw].
  intros p Hp. destruct c; try discriminate.
  injection Hp as ->. now destruct (Hw _ _ eq_refl).
Qed.

(** C6. The notebook cancels jobs once, unconditionally, as its last
    step.  Wherever [sc.cancelAllJobs()] occurs among the calls of a run,
    no call follows it, no cancellation precedes it, and every other call
    of the notebook has been issued before it.  And the cancellation
    depends on nothing but being reached: in every state of the outside
    world in which the calls before it all return, whatever they return,
    the run issues it, as the call that ends the run. *)
Theorem cancel_only_last w :
  (forall pre post,
      trace (run_all notebook w) = pre ++ c_cancelAllJobs :: post ->
      post = [] /\
      existsb is_cancel pre = false /\
      pre ++ [c_cancelAllJobs] = notebook_script) /\
  (result (replay (removelast notebook_script) w) = Ok tt ->
   trace (run_all notebook w)
   = removelast notebook_script ++ [c_cancelAllJobs]).
Proof.
  assert (Hs : notebook_script
               = removelast notebook_script ++ [c_cancelAllJobs])
    by (vm_compute; reflexivity).
  assert (Hnc : existsb is_cancel (removelast notebook_script) = false)
    by (vm_compute; reflexivity).
  assert (Hnin : ~ In c_cancelAllJobs (removelast notebook_script)).
  { intros Hin.
    assert (existsb is_cancel (removelast notebook_script) = true)
      by (apply existsb_exists; exists c_cancelAllJobs; auto).
    congruence. }
  set (body := removelast notebook_script) in *.
  split.
  - intros pre post H.
    destruct (follows_prefix _ _ _ _ w follows_notebook) as [n Hn].
    rewrite Hn in H. clear Hn.
    rewrite Hs in H. rewrite firstn_app in H.
    destruct (n - List.length body)%nat as [|k] eqn:Hk.
    + exfalso. apply Hnin. simpl in H. rewrite app_nil_r in H.
      apply in_firstn with (n := n). rewrite H.
      apply in_or_app; right; now left.
    + simpl in H. rewrite firstn_nil in H.
      rewrite firstn_all2 in H by lia.
      destruct (split_at_last _ _ _ _ _ Hnin H) as [-> ->].
      split; [reflexivity|]. split; [exact Hnc|].
      symmetry; exact Hs.
  - intros Hok.
    destruct (follows_notebook w) as (_ & Ht & _).
    rewrite Ht, Hs, replay_app. unfold bind. rewrite Hok. cbn [trace].
    rewrite (replay_ok_trace _ _ _ Hok), replay_single_trace.
    reflexivity.
Qed.

(** C9. Every experiment cell maps its timed body over [range(10)], the
    sizes 0 to 9 in order.  When the calls it issues all return, the cell
    has run the timed body once per size, in that order, and returns a list
    of exactly ten measurements, each the clock read when the run's last
    call has returned minus the clock read when the run started.  The
    first run works on the empty
    sequence: every call of it has the empty list as its source, and its
    last call is [take(0)] in the RDD experiment and a parquet write of an
    empty frame in the other three. *)
Theorem experiments_cover_range_10 i cell sb w :
  nth_error experiments i = Some cell ->
  nth_error body_scripts i = Some sb ->
  result (replay (experiment_script sb) w) = Ok tt ->
  range 10 = [0; 1; 2; 3; 4; 5; 6; 7; 8; 9] /\
  trace (cell w)
  = flat_map (fun x => timed (sb x)) [0; 1; 2; 3; 4; 5; 6; 7; 8; 9] /\
  result (cell w)
  = Ok (measures (map sb [0; 1; 2; 3; 4; 5; 6; 7; 8; 9]) w) /\
  List.length (measures (map sb [0; 1; 2; 3; 4; 5; 6; 7; 8; 9]) w)
  = 10%nat /\
  Forall (fun c => call_source c = Some []) (sb 0) /\
  (i = 0%nat ->
   last (sb 0) c_time = c_take 0 (RddMap udf_slow_func (Parallelize []))) /\
  (i <> 0%nat ->
   exists wr, last (sb 0) c_time = c_parquet path wr /\ writer_source wr = []).
Proof.
  intros Hc Hs Hok.
  destruct (follows_returns _ _ _ _ w (follows_cells _ _ _ Hc Hs) Hok)
    as (ts & Hts & Hlen & Htr).
  split; [reflexivity|]. split; [exact Htr|].
  split.
  { destruct (cells_are_experiments _ _ _ Hc Hs) as (A & body & -> & F).
    now destruct (py_map_timer_measures _ _ _ _ F (range 10) w Hok). }
  split; [now rewrite measures_length|].
  clear - Hs.
  destruct i as [|[|[|[|i]]]]; simpl in Hs;
    try (destruct i; discriminate); injection Hs as <-.
  - split; [repeat constructor|]. split; [reflexivity|]. now intros [].
  - split; [repeat constructor|]. split; [discriminate|].
    intros _. eexists. split; reflexivity.
  - split; [repeat constructor|]. split; [discriminate|].
    intros _. eexists. split; reflexivity.
  - split; [repeat constructor|]. split; [discriminate|].
    intros _. eexists. split; reflexivity.
Qed.

(** C8 (as amended).  Each timed run of an experiment cell ends in exactly
    one materialising call, a [take] or a parquet write, after the calls
    that build its plan; the cell makes ten such runs one after the other,
    each between its own two clock readings, so that when its calls all
    return it has issued ten materialising calls and recorded ten elapsed
    times, one per run: the clock read when the run's materialising call
    has returned minus the clock read when the run started. *)
Theorem each_run_one_job i cell sb w :
  nth_error experiments i = Some cell ->
  nth_error body_scripts i = Some sb ->
  result (replay (experiment_script sb) w) = Ok tt ->
  (forall x, exists plan job,
      sb x = plan ++ [job] /\ is_job job = true /\
      existsb is_job plan = false) /\
  trace (cell w) = flat_map (fun x => timed (sb x)) (range 10) /\
  List.length (filter is_job (trace (cell w))) = 10%nat /\
  result (cell w) = Ok (measures (map sb (range 10)) w) /\
  List.length (measures (map sb (range 10)) w) = 10%nat.
Proof.
  intros Hc Hs Hok.
  destruct (follows_returns _ _ _ _ w (follows_cells _ _ _ Hc Hs) Hok)
    as (ts & _ & _ & Htr).
  assert (Hts : result (cell w) = Ok (measures (map sb (range 10)) w)).
  { destruct (cells_are_experiments _ _ _ Hc Hs) as (A & body & -> & F).
    now destruct (py_map_timer_measures _ _ _ _ F (range 10) w Hok). }
  assert (Hlen : List.length (measures (map sb (range 10)) w) = 10%nat)
    by now rewrite measures_length.
  rewrite Htr. clear - Hs Hts Hlen.
  assert (Hjobs : forall delayed via x,
             exists plan job,
               frame_script delayed via x = plan ++ [job] /\
               is_job job = true /\ existsb is_job plan = false).
  { intros delayed via x. unfold frame_script.
    destruct delayed, via; simpl;
      match goal with
      | |- exists plan job, ?l = _ /\ _ =>
          exists (removelast l), (last l c_time)
      end; simpl; auto. }
  destruct i as [|[|[|[|i]]]]; simpl in Hs;
    try (destruct i; discriminate); injection Hs as <-;
    (split; [|split; [reflexivity|split; [|split; [exact Hts|exact Hlen]]]]);
    try apply Hjobs; try (vm_compute; reflexivity).
  intros x. unfold simple_rdd_script.
  match goal with
  | |- exists plan job, ?l = _ /\ _ => exists (removelast l), (last l c_time)
  end; simpl; auto.
Qed.

(** C4 (as amended).  The notebook runs exactly four experiments (its
    calls are the parallelism query, the example timing of [slow_func], the
    calls of the four experiments and the cancellation) and all four are
    the same wrapper, [timer] mapped over [range(10)], around a body that
    starts from [sc.parallelize(range(x))].  The three frame experiments
    are one program with two switches, whether [slow_func] is mapped over
    the data and which of [coalesce(1)] and [repartition(1)] precedes the
    write: that program wraps the data with [create_frame] and writes it
    to [path] as parquet in overwrite mode.  The simple RDD experiment is
    of another shape: it maps [slow_func] and ends in [take(x)]; it builds
    no frame, uses neither operator and writes nothing. *)
Theorem experiments_shape :
  follows (run_all notebook)
          ([c_defaultParallelism]
           ++ timed [c_sleep 1]
           ++ flat_map experiment_script body_scripts
           ++ [c_cancelAllJobs])
          (fun _ => True) /\
  List.length body_scripts = 4%nat /\
  experiments
  = [experiment simple_rdd_body; experiment coalesce_write_body;
     experiment coalesce_slow_body; experiment repartition_slow_body] /\
  (forall x w, coalesce_write_body x w = frame_body false by_coalesce x w) /\
  (forall x w, coalesce_slow_body x w = frame_body true by_coalesce x w) /\
  (forall x w,
      repartition_slow_body x w = frame_body true by_repartition x w) /\
  (forall delayed via x,
      follows (frame_body delayed via x) (frame_script delayed via x)
              (eq tt) /\
      persists_reduced (frame_script delayed via x) /\
      hd_error (frame_script delayed via x) = Some (c_parallelize (range x))) /\
  (forall x,
      follows (simple_rdd_body x)
              [c_parallelize (range x);
               c_map udf_slow_func (Parallelize (range x));
               c_take x (RddMap udf_slow_func (Parallelize (range x)))]
              (fun _ => True)).
Proof.
  split; [exact follows_notebook|].
  split; [reflexivity|].
  split; [reflexivity|].
  split; [exact coalesce_write_body_frame|].
  split; [exact coalesce_slow_body_frame|].
  split; [exact repartition_slow_body_frame|].
  split; [|exact follows_simple_rdd_body].
  intros delayed via x. split; [apply follows_frame_body|].
  split; [|reflexivity].
  unfold persists_reduced, frame_script.
  exists via. eexists. apply in_or_app; right. apply in_or_app; right.
  do 4 right. left. reflexivity.
Qed.

(** ** Further properties of the notebook's code *)

Lemma existsb_firstn_false A (p : A -> bool) n l :
  existsb p l = false -> existsb p (firstn n l) = false.
Proof.
  revert n; induction l as [|x l IH]; intros [|n] H; simpl in *; trivial.
  apply orb_false_iff in H. destruct H as [-> H]. simpl. now apply IH.
Qed.

Lemma filter_firstn_length A (p : A -> bool) n l :
  (List.length (filter p (firstn n l)) <= List.length (filter p l))%nat.
Proof.
  revert n; induction l as [|x l IH]; intros [|n]; simpl; try lia.
  specialize (IH n). destruct (p x); simpl; lia.
Qed.

(** X1. Timing [slow_func], as the example usage cell does: when the two
    clock readings and the sleep return, [timer(lambda: slow_func(ping))]
    issues a clock reading, [time.sleep(1)] and a clock reading, and
    returns the clock read after the sleep minus the clock read at the
    start, whatever [ping] is. *)
Theorem timer_slow_func A (ping : A) w :
  outcome E c_time w = None ->
  outcome E (c_sleep 1) (after E c_time w) = None ->
  outcome E c_time (after E (c_sleep 1) (after E c_time w)) = None ->
  timer (slow_func ping) w
  = mkRun (Ok (minus E (clock E (after E (c_sleep 1) (after E c_time w)))
                       (clock E w)))
          (after E c_time (after E (c_sleep 1) (after E c_time w)))
          [c_time; c_sleep 1; c_time].
Proof.
  intros H0 Hs H1. rewrite timer_unfold, H0. simpl.
  unfold slow_func, time_sleep, bind, call, ret. rewrite Hs. simpl.
  now rewrite H1.
Qed.

(** X2. The driver does not run [slow_func] in the experiments: whatever
    the outside world does, no experiment cell issues a [time.sleep], and a
    whole run of the notebook sleeps at most once (in the example usage
    cell). *)
Theorem driver_sleeps_at_most_once w :
  Forall (fun cell : M (list (Time E)) =>
            existsb is_sleep (trace (cell w)) = false) experiments /\
  (List.length (filter is_sleep (trace (run_all notebook w))) <= 1)%nat.
Proof.
  split.
  - assert (H : forall i cell sb,
               nth_error experiments i = Some cell ->
               nth_error body_scripts i = Some sb ->
               existsb is_sleep (experiment_script sb) = false ->
               existsb is_sleep (trace (cell w)) = false).
    { intros i cell sb Hc Hs Hno.
      destruct (follows_prefix _ _ _ _ w (follows_cells _ _ _ Hc Hs))
        as [n ->].
      now apply existsb_firstn_false. }
    unfold experiments. repeat apply Forall_cons; [| | | |apply Forall_nil].
    + now apply (H 0%nat _ simple_rdd_script).
    + now apply (H 1%nat _ (frame_script false by_coalesce)).
    + now apply (H 2%nat _ (frame_script true by_coalesce)).
    + now apply (H 3%nat _ (frame_script true by_repartition)).
  - destruct (follows_prefix _ _ _ _ w follows_notebook) as [n ->].
    eapply Nat.le_trans; [apply filter_firstn_length|].
    vm_compute. lia.
Qed.

(** X3. The run at size [x] works on [range(x)] throughout: in each of the
    four timed bodies, whatever the outside world does, every call issued
    has [range(x)] as its input sequence; that sequence has [x] rows ([0]
    rows for a negative [x]), the integers [k] with [0 <= k < x]. *)
Theorem runs_work_on_range x w :
  Forall (fun c => call_source c = Some (range x))
         (trace (simple_rdd_body x w)) /\
  Forall (fun c => call_source c = Some (range x))
         (trace (coalesce_write_body x w)) /\
  Forall (fun c => call_source c = Some (range x))
         (trace (coalesce_slow_body x w)) /\
  Forall (fun c => call_source c = Some (range x))
         (trace (repartition_slow_body x w)) /\
  List.length (range x) = Z.to_nat x /\
  (forall k, In k (range x) <-> 0 <= k < x).
Proof.
  assert (H : forall A (m : M A) s P,
             follows m s P ->
             Forall (fun c => call_source c = Some (range x)) s ->
             Forall (fun c => call_source c = Some (range x)) (trace (m w))).
  { intros A m s P F Hs. destruct (follows_prefix _ _ _ _ w F) as [n ->].
    rewrite Forall_forall in *. intros c Hc. apply Hs.
    eapply in_firstn; eauto. }
  assert (Hf : forall delayed via,
             Forall (fun c => call_source c = Some (range x))
                    (frame_script delayed via x)).
  { intros [] []; repeat constructor. }
  split; [eapply H; [apply follows_simple_rdd_body|repeat constructor]|].
  split.
  { eapply H; [|apply (Hf false by_coalesce)].
    eapply follows_ext; [|apply follows_frame_body].
    intros w'; symmetry; apply coalesce_write_body_frame. }
  split.
  { eapply H; [|apply (Hf true by_coalesce)].
    eapply follows_ext; [|apply follows_frame_body].
    intros w'; symmetry; apply coalesce_slow_body_frame. }
  split.
  { eapply H; [|apply (Hf true by_repartition)].
    eapply follows_ext; [|apply follows_frame_body].
    intros w'; symmetry; apply repartition_slow_body_frame. }
  unfold range. split.
  - now rewrite length_map, length_seq.
  - intros k. rewrite in_map_iff. split.
    + intros (j & <- & Hj). apply in_seq in Hj. lia.
    + intros Hk. exists (Z.to_nat k). split; [lia|]. apply in_seq. lia.
Qed.

Lemma written_frame_inv wr via r :
  written_frame wr = Some (via, r) ->
  wr = Mode "overwrite" (Write (reduced via 1 (CreateDataFrame r LongType))).
Proof.
  destruct wr as [d|m [d|m' wr']]; try discriminate.
  destruct d as [r0 sch|n [r0 []|n' d'|n' d']|n [r0 []|n' d'|n' d']];
    try discriminate; simpl;
    destruct (Z.eqb n 1) eqn:Hn; try discriminate;
    destruct (String.eqb m "overwrite") eqn:Hm; try discriminate;
    simpl; intros H; injection H as <- <-;
    apply Z.eqb_eq in Hn; apply String.eqb_eq in Hm; now subst.
Qed.

(** X4. Whatever the outside world does, every parquet write of the
    notebook is made through exactly this chain: a [LongType] frame made
    by [create_frame], brought to one partition by [coalesce(1)] or
    [repartition(1)], [.write], [.mode("overwrite")]. *)
Theorem writes_single_partition w :
  Forall (fun c =>
            match c with
            | c_parquet _ wr =>
                exists via r,
                  wr = Mode "overwrite"
                         (Write (reduced via 1 (CreateDataFrame r LongType)))
            | _ => True
            end)
         (trace (run_all notebook w)).
Proof.
  destruct (follows_prefix _ _ _ _ w follows_notebook) as [n ->].
  apply Forall_forall. intros c Hc. apply in_firstn in Hc.
  assert (Hall : forallb single_partition_write notebook_script = true)
    by (vm_compute; reflexivity).
  rewrite forallb_forall in Hall. specialize (Hall c Hc).
  destruct c; trivial. simpl in Hall.
  destruct (written_frame w0) as [[via r]|] eqn:Hw; [|discriminate].
  exists via, r. now apply written_frame_inv.
Qed.

Lemma jobs_timed_firstn n l :
  jobs_timed l = true -> jobs_timed (firstn n l) = true.
Proof.
  revert n; induction l as [|c l IH]; intros [|n] H; trivial.
  simpl in H. apply andb_true_iff in H. destruct H as [H1 H2].
  change (firstn (S n) (c :: l)) with (c :: firstn n l).
  cbn [jobs_timed]. rewrite (IH n H2), andb_true_r.
  destruct l as [|next l]; [now destruct n|].
  destruct n; [reflexivity|exact H1].
Qed.

Lemma jobs_timed_split pre c next post :
  jobs_timed (pre ++ c :: next :: post) = true ->
  is_job c = true -> next = c_time.
Proof.
  induction pre as [|p pre IH]; intros H Hc.
  - simpl in H. rewrite Hc in H. simpl in H.
    apply andb_true_iff in H. destruct H as [H _]. now destruct next.
  - apply IH; trivial.
    change ((p :: pre) ++ c :: next :: post)
      with (p :: (pre ++ c :: next :: post)) in H.
    cbn [jobs_timed] in H. apply andb_true_iff in H. tauto.
Qed.

(** X5. Every materialising call is timed to its end: whatever the outside
    world does, in a run of the notebook the call that comes right after a
    [take] or a parquet write is a reading of the clock. *)
Theorem jobs_end_at_clock_reading w pre c next post :
  trace (run_all notebook w) = pre ++ c :: next :: post ->
  is_job c = true ->
  next = c_time.
Proof.
  intros H Hc.
  destruct (follows_prefix _ _ _ _ w follows_notebook) as [n Hn].
  apply (jobs_timed_split pre c next post); trivial.
  rewrite <- H, Hn. apply jobs_timed_firstn. vm_compute. reflexivity.
Qed.

(** X6. A run of the notebook issues at most 315 calls, of which at most
    40 materialising calls and at most 30 parquet writes, whatever the
    outside world does; a run that comes to its end has issued exactly
    these numbers. *)
Theorem notebook_call_budget w :
  (List.length (trace (run_all notebook w)) <= 315)%nat /\
  (List.length (filter is_job (trace (run_all notebook w))) <= 40)%nat /\
  (List.length (filter is_write (trace (run_all notebook w))) <= 30)%nat /\
  (forall os,
      result (run_all notebook w) = Ok os ->
      List.length (trace (run_all notebook w)) = 315%nat /\
      List.length (filter is_job (trace (run_all notebook w))) = 40%nat /\
      List.length (filter is_write (trace (run_all notebook w))) = 30%nat).
Proof.
  repeat apply conj.
  - destruct (follows_prefix _ _ _ _ w follows_notebook) as [n ->].
    rewrite length_firstn. eapply Nat.le_trans; [apply Nat.le_min_r|].
    vm_compute. lia.
  - destruct (follows_prefix _ _ _ _ w follows_notebook) as [n ->].
    eapply Nat.le_trans; [apply filter_firstn_length|]. vm_compute. lia.
  - destruct (follows_prefix _ _ _ _ w follows_notebook) as [n ->].
    eapply Nat.le_trans; [apply filter_firstn_length|]. vm_compute. lia.
  - intros os Hos.
    destruct (follows_ok _ _ _ _ _ _ follows_notebook Hos) as [-> _].
    repeat split; vm_compute; reflexivity.
Qed.

(** X7. What an experiment cell returns: when the calls of its ten runs
    all return, the list it returns holds, for each size in order, the
    clock read once the run's last call has returned minus the clock read
    when the run started; the calls that build the plan are inside the
    measured interval, and the time between two runs is not. *)
Theorem experiment_measures i cell sb w :
  nth_error experiments i = Some cell ->
  nth_error body_scripts i = Some sb ->
  result (replay (experiment_script sb) w) = Ok tt ->
  result (cell w) = Ok (measures (map sb (range 10)) w).
Proof.
  intros Hc Hs Hok.
  destruct (cells_are_experiments _ _ _ Hc Hs) as (A & body & -> & F).
  unfold experiment.
  now destruct (py_map_timer_measures _ _ _ _ F (range 10) w Hok).
Qed.

End Driver.

Arguments Ok {E A} a.
Arguments Raise {E A} e.
Arguments mkRun {E A} result final trace.
Arguments result {E A} r.
Arguments final {E A} r.
Arguments trace {E A} r.

(** ** Instances in the concrete worlds *)

(** The notebook's example usage, [timer(lambda: slow_func(10))], started
    at second 0. *)
Lemma timer_once_elapsed_witness :
  timer quiet (slow_func quiet 10) 0
  = mkRun (E := quiet) (Ok 2) 3 [c_time; c_sleep 1; c_time].
Proof.
  exact (timer_once_elapsed quiet Z (slow_func quiet 10) 0 10
           eq_refl eq_refl eq_refl).
Defined.

(** Timing [slow_func(10)] and [slow_func("ping")] gives the same result. *)
Lemma timer_discards_result_witness :
  result (timer quiet (slow_func quiet 10) 0)
  = result (timer quiet (slow_func quiet "ping") 0) /\
  result (timer quiet (slow_func quiet 10) 0) = Ok 2.
Proof.
  exact (timer_discards_result quiet Z string
           (slow_func quiet 10) (slow_func quiet "ping") 0 10 "ping"
           eq_refl eq_refl eq_refl eq_refl eq_refl eq_refl).
Defined.

(** An interrupted sleep, an engine that is down, a clock that breaks and
    a job that fails on its fourth run. *)
Lemma exceptions_propagate_witness :
  slow_func no_sleep 10 0
  = mkRun (Raise (E := no_sleep) "Exception") 1 [c_sleep 1] /\
  create_frame down (Parallelize [7]) 0
  = mkRun (Raise (E := down) "Exception") 1
          [c_createDataFrame (Parallelize [7]) LongType]
  /\
  timer down (slow_func down 10) 0
  = mkRun (Raise (E := down) "Exception") 1 [c_time] /\
  timer no_sleep (slow_func no_sleep 10) 0
  = mkRun (Raise (E := no_sleep) "Exception") 2 [c_time; c_sleep 1] /\
  timer clock_breaks (slow_func clock_breaks 10) 0
  = mkRun (Raise (E := clock_breaks) "Exception") 3
          [c_time; c_sleep 1; c_time] /\
  cell_coalesce_slow flaky 0
  = mkRun (Raise (E := flaky) "Exception") 35
          (firstn 35 (experiment_script (frame_script true by_coalesce))).
Proof.
  destruct (exceptions_propagate no_sleep) as (Hs & _ & _ & Hf & _ & _).
  destruct (exceptions_propagate down) as (_ & Hd & Ht & _ & _ & _).
  destruct (exceptions_propagate clock_breaks) as (_ & _ & _ & _ & Hc & _).
  destruct (exceptions_propagate flaky) as (_ & _ & _ & _ & _ & He).
  split; [exact (Hs Z 10 0 "Exception" eq_refl)|].
  split; [exact (Hd (Parallelize [7]) 0 "Exception" eq_refl)|].
  split; [exact (Ht Z (slow_func down 10) 0 "Exception" eq_refl)|].
  split; [exact (Hf Z (slow_func no_sleep 10) 0 "Exception"
                    eq_refl eq_refl)|].
  split; [exact (Hc Z (slow_func clock_breaks 10) 0 10 "Exception"
                    eq_refl eq_refl eq_refl)|].
  exact (He 2%nat (cell_coalesce_slow flaky)
            (frame_script true by_coalesce)
            (firstn 34 (experiment_script (frame_script true by_coalesce)))
            (c_parquet path
               (Mode "overwrite"
                  (Write
                     (Coalesce 1
                        (CreateDataFrame
                           (RddMap udf_slow_func (Parallelize [0; 1; 2]))
                           LongType)))))
            (skipn 35 (experiment_script (frame_script true by_coalesce)))
            0 "Exception" eq_refl eq_refl eq_refl eq_refl eq_refl).
Defined.

(** The first write of a run in which nothing raises. *)
Lemma writes_overwrite_path_witness :
  In first_write (trace (run_all quiet (notebook quiet) 0)) /\
  (forall p, call_path first_write = Some p -> p = path) /\
  (forall p wr, first_write = c_parquet p wr ->
                p = path /\ writer_mode wr = Some "overwrite").
Proof.
  assert (Hin : In first_write (trace (run_all quiet (notebook quiet) 0)))
    by (apply nth_error_In with (n := 60%nat); reflexivity).
  split; [exact Hin|].
  exact (writes_overwrite_path quiet 0 first_write Hin).
Defined.

(** A run in which nothing raises ends with the cancellation, and so does
    a run in a world that answers the parallelism query with 8. *)
Lemma cancel_only_last_witness :
  (existsb is_cancel (removelast notebook_script) = false /\
   removelast notebook_script ++ [c_cancelAllJobs] = notebook_script) /\
  trace (run_all quiet (notebook quiet) 0)
  = removelast notebook_script ++ [c_cancelAllJobs] /\
  trace (run_all eight_cores (notebook eight_cores) 0)
  = removelast notebook_script ++ [c_cancelAllJobs].
Proof.
  destruct (cancel_only_last quiet 0) as [Hlast Hreached].
  destruct (cancel_only_last eight_cores 0) as [_ Hreached8].
  assert (H : trace (run_all quiet (notebook quiet) 0)
              = removelast notebook_script ++ [c_cancelAllJobs])
    by exact (Hreached eq_refl).
  split.
  - destruct (Hlast (removelast notebook_script) [] H) as (_ & Hpre & Hall).
    split; [exact Hpre | exact Hall].
  - split; [exact H | exact (Hreached8 eq_refl)].
Defined.

(** The simple RDD experiment in the world where nothing raises and each
    call takes a second: ten runs of four seconds. *)
Lemma experiments_cover_range_10_witness :
  trace (cell_simple_rdd quiet 0)
  = flat_map (fun x => timed (simple_rdd_script x))
             [0; 1; 2; 3; 4; 5; 6; 7; 8; 9] /\
  result (cell_simple_rdd quiet 0) = Ok [4; 4; 4; 4; 4; 4; 4; 4; 4; 4] /\
  last (simple_rdd_script 0) c_time
  = c_take 0 (RddMap udf_slow_func (Parallelize [])).
Proof.
  destruct (experiments_cover_range_10 quiet 0%nat (cell_simple_rdd quiet)
              simple_rdd_script 0 eq_refl eq_refl eq_refl)
    as (_ & Htr & Hts & _ & _ & Hlast & _).
  split; [exact Htr|]. split; [exact Hts|]. exact (Hlast eq_refl).
Defined.

(** The coalesce experiment with the mapped delay, nothing raising, each
    call taking a second: ten jobs, ten runs of eight seconds. *)
Lemma each_run_one_job_witness :
  List.length (filter is_job (trace (cell_coalesce_slow quiet 0))) = 10%nat /\
  result (cell_coalesce_slow quiet 0) = Ok [8; 8; 8; 8; 8; 8; 8; 8; 8; 8].
Proof.
  destruct (each_run_one_job quiet 2%nat (cell_coalesce_slow quiet)
              (frame_script true by_coalesce) 0 eq_refl eq_refl eq_refl)
    as (_ & _ & Hjobs & Hts & _).
  split; [exact Hjobs | exact Hts].
Defined.

(** C4, as stated, fails: the simple RDD experiment persists nothing.  Not
    every experiment writes a frame reduced by [coalesce(1)] or
    [repartition(1)] to parquet, so the experiments differ in more than
    the three listed ways. *)
Lemma not_every_experiment_persists :
  ~ (forall cell, In cell (experiments quiet) ->
                  persists_reduced (trace (cell 0))).
Proof.
  intros H.
  destruct (H (cell_simple_rdd quiet) (or_introl eq_refl))
    as (via & d & Hin).
  assert (Hno : forallb (fun c => match call_path c with
                                  | None => true
                                  | Some _ => false
                                  end)
                        (trace (cell_simple_rdd quiet 0)) = true)
    by (vm_compute; reflexivity).
  rewrite forallb_forall in Hno. specialize (Hno _ Hin). discriminate.
Qed.

(** C8, as stated, fails: a cell whose calls all return has issued ten
    materialising calls and recorded ten times, not one. *)
Lemma cell_is_not_one_job_one_time :
  ~ (forall cell, In cell (experiments quiet) ->
                  one_job_one_time quiet (cell 0)).
Proof.
  intros H.
  destruct (H (cell_coalesce_slow quiet)
              (or_intror (or_intror (or_introl eq_refl)))) as [Hlen _].
  vm_compute in Hlen. discriminate.
Qed.

(** ** Instances of the further properties *)

(** Timing [slow_func("ping")] from second 0, nothing raising. *)
Lemma timer_slow_func_witness :
  timer quiet (slow_func quiet "ping") 0
  = mkRun (E := quiet) (Ok 2) 3 [c_time; c_sleep 1; c_time].
Proof.
  exact (timer_slow_func quiet string "ping" 0 eq_refl eq_refl eq_refl).
Defined.

(** The first job of a run, [take(0)], is followed by a clock reading. *)
Lemma jobs_end_at_clock_reading_witness :
  trace (run_all quiet (notebook quiet) 0)
  = firstn 7 notebook_script
    ++ c_take 0 (RddMap udf_slow_func (Parallelize []))
    :: nth 8 notebook_script c_cancelAllJobs
    :: skipn 9 notebook_script /\
  nth 8 notebook_script c_cancelAllJobs = c_time.
Proof.
  assert (H : trace (run_all quiet (notebook quiet) 0)
              = firstn 7 notebook_script
                ++ c_take 0 (RddMap udf_slow_func (Parallelize []))
                :: nth 8 notebook_script c_cancelAllJobs
                :: skipn 9 notebook_script)
    by (vm_compute; reflexivity).
  split; [exact H|].
  exact (jobs_end_at_clock_reading quiet 0 _ _ _ _ H eq_refl).
Defined.

(** A run in which nothing raises uses the whole budget. *)
Lemma notebook_call_budget_witness :
  List.length (trace (run_all quiet (notebook quiet) 0)) = 315%nat /\
  List.length (filter is_job (trace (run_all quiet (notebook quiet) 0)))
  = 40%nat /\
  List.length (filter is_write (trace (run_all quiet (notebook quiet) 0)))
  = 30%nat.
Proof.
  destruct (notebook_call_budget quiet 0) as (_ & _ & _ & H).
  assert (R : exists os, result (run_all quiet (notebook quiet) 0) = Ok os)
    by (vm_compute; eexists; reflexivity).
  destruct R as [os R].
  destruct (H os R) as (H1 & H2 & H3).
  split; [exact H1|]. split; [exact H2 | exact H3].
Defined.

(** In the world where each call takes a second, each run of the simple
    RDD experiment measures four seconds. *)
Lemma experiment_measures_witness :
  result (cell_simple_rdd quiet 0) = Ok [4; 4; 4; 4; 4; 4; 4; 4; 4; 4].
Proof.
  exact (experiment_measures quiet 0%nat (cell_simple_rdd quiet)
           simple_rdd_script 0 eq_refl eq_refl eq_refl).
Defined.
